(** * Verification of [bot/review.py]

    A shallow embedding of the AI code-review helper: the prompt builder
    [build_prompt], the API client and response extractor [review_diff],
    the file reader [_read_file] and the command-line entry point [main].

    Python text ([str]) is a sequence of Unicode code points; the parsed
    JSON body of a response is a tree of Python objects; calls that reach
    outside the process (environment, network, file system, standard
    streams) are recorded in a trace of events and answered by a [World]. *)

From Stdlib Require Import List NArith ZArith String Ascii Bool Lia DecimalString.
Import ListNotations.

#[local] Set Warnings "-register-all".

(** ** Python text *)

Module PyStr.

(** A Python [str]: its code points, in order. *)
Definition pystr := list N.

(** A source literal made of ASCII characters only. *)
Definition lit (s : string) : pystr := map N_of_ascii (list_ascii_of_string s).

(** [str.isspace] on one code point, the set [str.strip()] removes:
    the Unicode White_Space characters and the separators U+001C..U+001F. *)
Definition isspace (c : N) : bool :=
  ((0x09 <=? c) && (c <=? 0x0d) || (0x1c <=? c) && (c <=? 0x20)
   || (c =? 0x85) || (c =? 0xa0) || (c =? 0x1680)
   || (0x2000 <=? c) && (c <=? 0x200a)
   || (c =? 0x2028) || (c =? 0x2029) || (c =? 0x202f)
   || (c =? 0x205f) || (c =? 0x3000))%N.

Fixpoint lstrip (s : pystr) : pystr :=
  match s with
  | [] => []
  | c :: s' => if isspace c then lstrip s' else s
  end.

Definition rstrip (s : pystr) : pystr := rev (lstrip (rev s)).

(** [s.strip()] *)
Definition strip (s : pystr) : pystr := rstrip (lstrip s).

(** Truth value of a [str]: false exactly for the empty one. *)
Definition truthy (s : pystr) : bool :=
  match s with [] => false | _ :: _ => true end.

(** [s.isspace()] without the non-emptiness requirement: every code point
    of [s] is white space. *)
Definition blank (s : pystr) : bool := forallb isspace s.

Fixpoint eqb (a b : pystr) : bool :=
  match a, b with
  | [], [] => true
  | x :: a', y :: b' => (x =? y)%N && eqb a' b'
  | _, _ => false
  end.

Fixpoint startswith (s prefix : pystr) {struct prefix} : bool :=
  match prefix, s with
  | [], _ => true
  | p :: prefix', c :: s' => (p =? c)%N && startswith s' prefix'
  | _ :: _, [] => false
  end.

(** [needle in hay] *)
Fixpoint str_in (needle hay : pystr) : bool :=
  startswith hay needle ||
  match hay with
  | [] => false
  | _ :: hay' => str_in needle hay'
  end.

(** [needle] occurs in [hay] as a contiguous run. *)
Definition contains (needle hay : pystr) : Prop :=
  exists pre post, hay = pre ++ needle ++ post.

(** [sep.join(parts)] *)
Fixpoint join (sep : pystr) (parts : list pystr) : pystr :=
  match parts with
  | [] => []
  | [p] => p
  | p :: rest => p ++ sep ++ join sep rest
  end.

End PyStr.
Import PyStr.

(** ** The prompt builder *)

(** The text of the f-string of [build_prompt] before the placeholder
    [{diff_text}]: it opens with the line break that follows the opening
    quotes and ends with the line break after [Diff:]. The template holds one
    character outside ASCII, the dash U+2013 of the example line. *)
Definition prompt_template : pystr :=
  lit "
You are an expert senior code and content reviewer.
You receive a unified Git diff. Your tasks are:

1. *Change Overview (what changed vs previous version)*
- Provide a concise bullet list of the main changes.
- For each item, mention the file name and a short description.
- Example: file.txt " ++ [0x2013%N] ++ lit " new text file added containing a personal message.

2. *Detailed Diff Explanation (before vs after)*
- For each file in the diff, explain what changed compared to the previous version:
    - What was added?
    - What was removed?
    - What was modified?
- When useful, quote small snippets (in backticks) to show the old vs new behavior.

3. *Quality, Risks & Sensitive Content*
- Highlight bugs, logic issues, readability problems, and code smells.
- Analyze configuration and text files as well, not only source code.
- Explicitly flag any *personal, sensitive or inappropriate content* that should not be committed (e.g. names, private messages, secrets).
- Mention potential security or privacy risks.

4. *Actionable Recommendations*
- Provide practical suggestions to improve the changes.
- You can propose refactors, better naming, extra tests, or removal of sensitive data.

Respond in clear Markdown with the following sections:

- Summary of Changes
- File-by-file Diff Explanation
- Risks & Sensitive Content
- Recommendations

Diff:
".

(** [build_prompt(diff_text)]: the formatted template, then [.strip()] on
    the whole of it. *)
Definition build_prompt (diff_text : pystr) : pystr :=
  strip (prompt_template ++ diff_text ++ [0x0a%N]).

(** ** Python objects built by a JSON parser *)

Module PyObj.

(** A [float] is kept by the text [repr] prints for it; the three values that
    are not finite print differently under [str] and under [json.dumps]. *)
Inductive pyfloat :=
| Finite (repr : pystr)
| NaN
| PosInf
| NegInf.

(** What [json.loads] can build. A [VDict] lists its items in insertion order
    with pairwise distinct keys, and its keys are always [str]. *)
Inductive value :=
| VNone
| VBool (b : bool)
| VInt (i : Z)
| VFloat (f : pyfloat)
| VStr (s : pystr)
| VList (items : list value)
| VDict (items : list (pystr * value)).

(** Exceptions that this program raises or lets through. A constructor
    with a [message] stands for any instance of that class, of whatever
    subclass, and carries its [str]. [JSONDecodeError] is the one that
    [response.json()] raises, the class of that name in [requests];
    [OtherException] is an instance of a class that is none of the others
    nor a subclass of one. *)
Inductive exn :=
| AIReviewError (message : pystr)
| RequestException (message : pystr)
| JSONDecodeError
| KeyError
| IndexError
| TypeError
| OSError (message : pystr)
| UnicodeDecodeError
| ValueError (message : pystr)
| UnicodeEncodeError
| OtherException (name message : pystr).

(** The classes are not disjoint: [requests.RequestException] derives from
    [OSError], and the [JSONDecodeError] of [requests] derives from
    [RequestException]. These are the tests an [except] clause makes. *)
Definition isinstance_RequestException (e : exn) : bool :=
  match e with
  | RequestException _ | JSONDecodeError => true
  | _ => false
  end.

Definition isinstance_OSError (e : exn) : bool :=
  match e with
  | OSError _ | RequestException _ | JSONDecodeError => true
  | _ => false
  end.

(** How a call ends. *)
Inductive outcome (A : Type) :=
| Return (a : A)
| Raise (e : exn).
Arguments Return {A} a.
Arguments Raise {A} e.

(** A subscript: [obj["name"]] or [obj[0]]. *)
Inductive key :=
| KStr (s : pystr)
| KInt (i : Z).

Fixpoint dict_get (items : list (pystr * value)) (k : pystr) : option value :=
  match items with
  | [] => None
  | (k', v) :: rest => if PyStr.eqb k' k then Some v else dict_get rest k
  end.

(** [seq[i]] on a sequence of length [len], Python's index rule: negative
    indices count from the end. *)
Definition seq_index {A : Type} (l : list A) (i : Z) : option A :=
  let len := Z.of_nat (List.length l) in
  if (0 <=? i)%Z && (i <? len)%Z then nth_error l (Z.to_nat i)
  else if (- len <=? i)%Z && (i <? 0)%Z then nth_error l (Z.to_nat (len + i))
  else None.

(** [obj[k]]. A dict raises [KeyError] on a missing key (an [int] is never a
    key of a parsed JSON object); a list or a str raises [IndexError] out of
    range and [TypeError] on a [str] subscript; every other object is not
    subscriptable. *)
Definition getitem (obj : value) (k : key) : outcome value :=
  match obj, k with
  | VDict items, KStr s =>
      match dict_get items s with
      | Some v => Return v
      | None => Raise KeyError
      end
  | VDict _, KInt _ => Raise KeyError
  | VList items, KInt i =>
      match seq_index items i with
      | Some v => Return v
      | None => Raise IndexError
      end
  | VStr s, KInt i =>
      match seq_index s i with
      | Some c => Return (VStr [c])
      | None => Raise IndexError
      end
  | _, _ => Raise TypeError
  end.

Definition isinstance_dict (v : value) : bool :=
  match v with VDict _ => true | _ => false end.

(** [k in obj] for a dict [obj]. *)
Definition key_in (k : pystr) (obj : value) : bool :=
  match obj with
  | VDict items => match dict_get items k with Some _ => true | None => false end
  | _ => false
  end.

(** *** Numbers and digits *)

(** [str(i)] of an [int]. *)
Definition int_str (i : Z) : pystr := lit (NilZero.string_of_int (Z.to_int i)).

Definition float_repr (f : pyfloat) : pystr :=
  match f with
  | Finite r => r
  | NaN => lit "nan"
  | PosInf => lit "inf"
  | NegInf => lit "-inf"
  end.

Definition hex_digit (d : N) : N :=
  (if d <? 10 then 0x30 + d else 0x61 + (d - 10))%N.

(** [n] in lower-case hexadecimal, exactly [width] digits (low digits kept). *)
Fixpoint hex_fixed (width : nat) (n : N) : pystr :=
  match width with
  | O => []
  | S w => hex_fixed w (n / 16)%N ++ [hex_digit (n mod 16)%N]
  end.

(** *** [repr] and [str] *)

Definition backslash : N := 0x5c%N.
Definition dquote : N := 0x22%N.
Definition squote : N := 0x27%N.

(** [str.isprintable] on one code point. Inside ASCII it is the range from the
    space to the tilde; outside, it is a table of the interpreter's Unicode
    database, given as [table]. *)
Definition isprintable (table : N -> bool) (c : N) : bool :=
  (if c <? 0x80 then (0x20 <=? c) && (c <=? 0x7e) else table c)%N.

Definition repr_char (table : N -> bool) (quote c : N) : pystr :=
  (if (c =? quote) || (c =? backslash) then [backslash; c]
   else if c =? 0x09 then lit "\t"
   else if c =? 0x0a then lit "\n"
   else if c =? 0x0d then lit "\r"
   else if isprintable table c then [c]
   else if c <? 0x100 then lit "\x" ++ hex_fixed 2 c
   else if c <? 0x10000 then lit "\u" ++ hex_fixed 4 c
   else lit "\U" ++ hex_fixed 8 c)%N.

(** [repr(s)] of a [str]: single quotes, unless [s] holds a single quote and
    no double quote. *)
Definition str_repr (table : N -> bool) (s : pystr) : pystr :=
  let quote :=
    if existsb (N.eqb squote) s && negb (existsb (N.eqb dquote) s)
    then dquote else squote in
  [quote] ++ flat_map (repr_char table quote) s ++ [quote].

Fixpoint py_repr (table : N -> bool) (v : value) : pystr :=
  match v with
  | VNone => lit "None"
  | VBool true => lit "True"
  | VBool false => lit "False"
  | VInt i => int_str i
  | VFloat f => float_repr f
  | VStr s => str_repr table s
  | VList items =>
      lit "[" ++ join (lit ", ") (map (py_repr table) items) ++ lit "]"
  | VDict items =>
      lit "{"
      ++ join (lit ", ")
           (map (fun '(k, x) => str_repr table k ++ lit ": " ++ py_repr table x)
                items)
      ++ lit "}"
  end.

(** [str(v)]: a [str] is itself, every other object prints as its [repr]. *)
Definition py_str (table : N -> bool) (v : value) : pystr :=
  match v with
  | VStr s => s
  | _ => py_repr table v
  end.

(** *** [json.dumps] *)

(** One character of a JSON string literal under [ensure_ascii]. *)
Definition json_escape_char (c : N) : pystr :=
  (if c =? dquote then [backslash; dquote]
   else if c =? backslash then [backslash; backslash]
   else if c =? 0x0a then lit "\n"
   else if c =? 0x0d then lit "\r"
   else if c =? 0x09 then lit "\t"
   else if c =? 0x0c then lit "\f"
   else if c =? 0x08 then lit "\b"
   else if (0x20 <=? c) && (c <=? 0x7e) then [c]
   else if c <? 0x10000 then lit "\u" ++ hex_fixed 4 c
   else
     let n := c - 0x10000 in
     let s1 := N.lor 0xd800 (N.land (N.shiftr n 10) 0x3ff) in
     let s2 := N.lor 0xdc00 (N.land n 0x3ff) in
     lit "\u" ++ hex_fixed 4 s1 ++ lit "\u" ++ hex_fixed 4 s2)%N.

Definition json_string (s : pystr) : pystr :=
  [dquote] ++ flat_map json_escape_char s ++ [dquote].

Definition json_float (f : pyfloat) : pystr :=
  match f with
  | Finite r => r
  | NaN => lit "NaN"
  | PosInf => lit "Infinity"
  | NegInf => lit "-Infinity"
  end.

(** The line break and indentation written before an item at nesting depth
    [level]; nothing when no [indent] is asked for. *)
Definition newline_indent (indent : option nat) (level : nat) : pystr :=
  match indent with
  | None => []
  | Some n => [0x0a%N] ++ repeat 0x20%N (n * level)
  end.

Definition item_separator (indent : option nat) : pystr :=
  match indent with
  | None => lit ", "
  | Some _ => lit ","
  end.

(** [json.dumps(v, indent=indent)] at nesting depth [level]. *)
Fixpoint json_encode (indent : option nat) (level : nat) (v : value) : pystr :=
  match v with
  | VNone => lit "null"
  | VBool true => lit "true"
  | VBool false => lit "false"
  | VInt i => int_str i
  | VFloat f => json_float f
  | VStr s => json_string s
  | VList [] => lit "[]"
  | VList items =>
      lit "[" ++ newline_indent indent (S level)
      ++ join (item_separator indent ++ newline_indent indent (S level))
           (map (json_encode indent (S level)) items)
      ++ newline_indent indent level ++ lit "]"
  | VDict [] => lit "{}"
  | VDict items =>
      lit "{" ++ newline_indent indent (S level)
      ++ join (item_separator indent ++ newline_indent indent (S level))
           (map (fun '(k, x) =>
                   json_string k ++ lit ": " ++ json_encode indent (S level) x)
                items)
      ++ newline_indent indent level ++ lit "}"
  end.

Definition json_dumps (indent : option nat) (v : value) : pystr :=
  json_encode indent 0 v.

End PyObj.
Import PyObj.

(** ** The outside world and the effects of a run *)

Module Effects.

(** The arguments of the one [requests.post] call. *)
Record Request := {
  url : pystr;
  headers : list (pystr * pystr);
  data : pystr;
  timeout : Z
}.

(** What the program reads of a [requests.Response]: [status_code], [text],
    and the result of [json()], [None] when the body does not parse (the call
    then raises [JSONDecodeError]). *)
Record Response := {
  status_code : Z;
  text : pystr;
  json_body : option value
}.

(** [requests.post] hands back a response, or raises an instance of
    [RequestException] whose [str] is [reason], or raises an exception [e]
    that is not one, as it does with a [ValueError] or a
    [UnicodeEncodeError] for a token that cannot be sent in a header. *)
Inductive post_answer :=
| Responds (r : Response)
| Fails (reason : pystr)
| Crashes (e : exn) (other : isinstance_RequestException e = false).

(** Opening and reading a file as UTF-8: its text; or an instance of
    [OSError] whose [str] is [reason], when the file cannot be opened or
    read; or an exception [e] that is not one, such as the
    [UnicodeDecodeError] for bytes that are not UTF-8. *)
Inductive read_answer :=
| Content (s : pystr)
| Unreadable (reason : pystr)
| ReadCrash (e : exn) (other : isinstance_OSError e = false).

Record World := {
  (** [os.getenv]: the process environment *)
  environ : pystr -> option pystr;
  (** the network, as seen through [requests.post] *)
  network : Request -> post_answer;
  (** the file system, as seen through [open(path).read()] *)
  files : pystr -> read_answer;
  (** [str.isprintable] outside ASCII *)
  unicode_printable : N -> bool;
  (** the code points that the encoding of standard output can write *)
  stdout_encodes : N -> bool
}.

Inductive stream := Stdout | Stderr.

(** What a run does that can be seen from outside, in order. *)
Inductive event :=
| Getenv (name : pystr)
| HttpPost (req : Request)
| OpenFile (path : pystr)
| Print (file : stream) (line : pystr).

(** A computation: given the world, the events it causes and how it ends. *)
Definition M (A : Type) : Type := World -> list event * outcome A.

Definition ret {A : Type} (a : A) : M A := fun _ => ([], Return a).

Definition raise {A : Type} (e : exn) : M A := fun _ => ([], Raise e).

Definition bind {A B : Type} (m : M A) (k : A -> M B) : M B :=
  fun w =>
    match m w with
    | (t1, Return a) => let (t2, o) := k a w in (t1 ++ t2, o)
    | (t1, Raise e) => (t1, Raise e)
    end.

(** The body of a [try]: its outcome, raised exception included, is handed
    to the [except] clauses that follow. *)
Definition attempt {A : Type} (m : M A) : M (outcome A) :=
  fun w => let (t, o) := m w in (t, Return o).

Definition lift {A : Type} (o : outcome A) : M A := fun _ => ([], o).

Definition emit (e : event) : M unit := fun _ => ([e], Return tt).

Definition ask : M World := fun w => ([], Return w).

End Effects.
Import Effects.

Declare Scope py_scope.
Delimit Scope py_scope with py.
Notation "x <- m ;; k" := (bind m (fun x => k))
  (at level 61, m at next level, right associativity) : py_scope.
Notation "m ;; k" := (bind m (fun _ => k))
  (at level 61, right associativity) : py_scope.
Local Open Scope py_scope.

(** [os.getenv(name)] *)
Definition os_getenv (name : pystr) : M (option pystr) :=
  emit (Getenv name) ;;
  w <- ask ;;
  ret (environ w name).

(** [requests.post(url, headers=..., data=..., timeout=...)]. The instances
    of [RequestException] it raises are the values [RequestException reason]:
    what [Crashes] gives is none, so the [except requests.RequestException]
    clause of the caller is a match on that constructor. *)
Definition requests_post (req : Request) : M Response :=
  emit (HttpPost req) ;;
  w <- ask ;;
  match network w req with
  | Responds r => ret r
  | Fails reason => raise (RequestException reason)
  | Crashes e _ => raise e
  end.

(** [response.json()] *)
Definition response_json (response : Response) : M value :=
  match json_body response with
  | Some v => ret v
  | None => raise JSONDecodeError
  end.

(** [obj[k]] inside a computation *)
Definition subscript (obj : value) (k : key) : M value := lift (getitem obj k).

(** [str(v)] *)
Definition str (v : value) : M pystr :=
  w <- ask ;;
  ret (py_str (unicode_printable w) v).

(** [print(line, file=...)]: the text and a line break. Standard output
    encodes strictly: a text with a code point its encoding cannot write
    raises [UnicodeEncodeError] before anything is written. Standard error
    writes such a code point as an escape and does not raise. *)
Definition print (file : stream) (line : pystr) : M unit :=
  match file with
  | Stderr => emit (Print Stderr (line ++ [0x0a%N]))
  | Stdout =>
      w <- ask ;;
      if forallb (stdout_encodes w) line then
        emit (Print Stdout (line ++ [0x0a%N]))
      else raise UnicodeEncodeError
  end.

(** ** The API client and response extractor *)

Definition GITHUB_MODELS_ENDPOINT : pystr :=
  lit "https://models.github.ai/inference/chat/completions".

Definition DEFAULT_MODEL : pystr := lit "openai/gpt-4o-mini".

(** Truth value of an [Optional[str]]. *)
Definition token_truthy (token : option pystr) : bool :=
  match token with
  | None => false
  | Some s => truthy s
  end.

(** [data["choices"][0]["message"]["content"]] *)
Definition content_path (data : value) : M value :=
  choices <- subscript data (KStr (lit "choices")) ;;
  first <- subscript choices (KInt 0) ;;
  message <- subscript first (KStr (lit "message")) ;;
  subscript message (KStr (lit "content")).

(** The [for part in message_content] loop of [review_diff], with [parts] the
    list built so far. *)
Fixpoint collect_parts (message_content : list value) (parts : list pystr)
  : M (list pystr) :=
  match message_content with
  | [] => ret parts
  | part :: rest =>
      if isinstance_dict part && key_in (lit "text") part then
        x <- subscript part (KStr (lit "text")) ;;
        s <- str x ;;
        collect_parts rest (parts ++ [s])
      else
        s <- str part ;;
        collect_parts rest (parts ++ [s])
  end.

(** The second half of [review_diff], from the status check on: what it does
    with the [response] that [requests.post] handed back. The two
    [isinstance] tests on [message_content] are the first two cases of the
    final match. *)
Definition extract_review (response : Response) : M pystr :=
  if negb (status_code response =? 200)%Z then
    raise (AIReviewError
             (lit "GitHub Models API returned "
              ++ int_str (status_code response) ++ lit ": "
              ++ text response))
  else
    data <- response_json response ;;
    found <- attempt (content_path data) ;;
    message_content <-
      match found with
      | Return v => ret v
      | Raise KeyError | Raise IndexError =>
          raise (AIReviewError
                   (lit "Unexpected response format from API: "
                    ++ json_dumps (Some 2%nat) data))
      | Raise e => raise e
      end ;;
    match message_content with
    | VStr s => ret s
    | VList items =>
        parts <- collect_parts items [] ;;
        ret (join [0x0a%N] parts)
    | _ => str message_content
    end.

(** [review_diff(diff_text, model, token)]: the two guards, the credential,
    the request, then [extract_review] on the response. *)
Definition review_diff (diff_text : pystr) (model : pystr)
  (token : option pystr) : M pystr :=
  if negb (truthy (strip diff_text)) then
    raise (AIReviewError (lit "Empty diff provided; nothing to review."))
  else
    token <- match token with
             | None => os_getenv (lit "GITHUB_TOKEN")
             | Some _ => ret token
             end ;;
    if negb (token_truthy token) then
      raise (AIReviewError
               (lit "Missing GITHUB_TOKEN environment variable. "
                ++ lit "Set it to a GitHub PAT with models:read permissions."))
    else
      let token := match token with Some s => s | None => [] end in
      let prompt := build_prompt diff_text in
      let payload :=
        VDict [ (lit "model", VStr model);
                (lit "messages",
                 VList [ VDict [ (lit "role", VStr (lit "user"));
                                 (lit "content", VStr prompt) ] ]) ] in
      let headers :=
        [ (lit "Authorization", lit "Bearer " ++ token);
          (lit "Content-Type", lit "application/json");
          (lit "Accept", lit "application/json");
          (lit "X-GitHub-Api-Version", lit "2022-11-28") ] in
      posted <- attempt (requests_post
                           {| url := GITHUB_MODELS_ENDPOINT;
                              headers := headers;
                              data := json_dumps None payload;
                              timeout := 60 |}) ;;
      response <- match posted with
                  | Return r => ret r
                  | Raise (RequestException exc) =>
                      raise (AIReviewError (lit "HTTP request failed: " ++ exc))
                  | Raise e => raise e
                  end ;;
      extract_review response.

(** ** The command line *)

(** [_read_file(path)]: the whole file, decoded as UTF-8. The instances of
    [OSError] it raises are the values [OSError reason]: what [ReadCrash]
    gives is none, so the [except OSError] clause of the caller is a match
    on that constructor. *)
Definition _read_file (path : pystr) : M pystr :=
  emit (OpenFile path) ;;
  w <- ask ;;
  match files w path with
  | Content s => ret s
  | Unreadable reason => raise (OSError reason)
  | ReadCrash e _ => raise e
  end.

Definition main (argv : list pystr) : M Z :=
  if (List.length argv <? 2)%nat then
    print Stderr (lit "Usage: python -m bot.review path/to/diff.txt") ;;
    ret 1%Z
  else
    let diff_path := nth 1 argv [] in
    read <- attempt (_read_file diff_path) ;;
    match read with
    | Raise (OSError exc) =>
        print Stderr (lit "Error reading diff file '" ++ diff_path ++ lit "': "
                      ++ exc) ;;
        ret 1%Z
    | Raise e => raise e
    | Return diff_text =>
        reviewed <- attempt (review_diff diff_text DEFAULT_MODEL None) ;;
        match reviewed with
        | Raise (AIReviewError exc) =>
            print Stderr (lit "AI review failed: " ++ exc) ;;
            ret 2%Z
        | Raise e => raise e
        | Return review =>
            print Stdout review ;;
            ret 0%Z
        end
    end.

(** ** Vocabulary of the statements *)

(** The two guard errors of [review_diff]. *)
Definition empty_input_error : exn :=
  AIReviewError (lit "Empty diff provided; nothing to review.").

Definition missing_credential_error : exn :=
  AIReviewError
    (lit "Missing GITHUB_TOKEN environment variable. Set it to a GitHub PAT with models:read permissions.").

(** The credential a call ends up with: the argument, else the variable. *)
Definition credential (w : World) (token : option pystr) : option pystr :=
  match token with
  | Some t => Some t
  | None => environ w (lit "GITHUB_TOKEN")
  end.

(** The events of resolving the credential. *)
Definition lookup_trace (token : option pystr) : list event :=
  match token with
  | Some _ => []
  | None => [Getenv (lit "GITHUB_TOKEN")]
  end.

(** The request [review_diff] posts for a diff, a model and a credential. *)
Definition request_of (diff_text model token : pystr) : Request :=
  {| url := GITHUB_MODELS_ENDPOINT;
     headers :=
       [ (lit "Authorization", lit "Bearer " ++ token);
         (lit "Content-Type", lit "application/json");
         (lit "Accept", lit "application/json");
         (lit "X-GitHub-Api-Version", lit "2022-11-28") ];
     data :=
       json_dumps None
         (VDict [ (lit "model", VStr model);
                  (lit "messages",
                   VList [ VDict [ (lit "role", VStr (lit "user"));
                                   (lit "content",
                                    VStr (build_prompt diff_text)) ] ]) ]);
     timeout := 60 |}.

Definition is_http_post (e : event) : bool :=
  match e with HttpPost _ => true | _ => false end.

Definition is_getenv (e : event) : bool :=
  match e with Getenv _ => true | _ => false end.

(** The instructions of the prompt, from [You are] to [Diff:]. *)
Definition prompt_instructions : pystr := strip prompt_template.

(** The four headings the prompt asks for. *)
Definition headings : list pystr :=
  [ lit "Summary of Changes";
    lit "File-by-file Diff Explanation";
    lit "Risks & Sensitive Content";
    lit "Recommendations" ].

(** The response extractor for a sequence, in the words of the
    specification: a mapping with a [text] entry gives that entry's string
    form, every other element its generic string representation; the texts
    are joined by line breaks, in order. *)
Definition spec_part_text (table : N -> bool) (part : value) : pystr :=
  match part with
  | VDict items =>
      match dict_get items (lit "text") with
      | Some entry => py_str table entry
      | None => py_str table part
      end
  | _ => py_str table part
  end.

Definition spec_sequence_text (table : N -> bool) (items : list value) : pystr :=
  join [0x0a%N] (map (spec_part_text table) items).

(** The value found at [choices[0].message.content], or the exception the
    first failing subscript raises. *)
Definition content_of (data : value) : outcome value :=
  match getitem data (KStr (lit "choices")) with
  | Raise e => Raise e
  | Return choices =>
      match getitem choices (KInt 0) with
      | Raise e => Raise e
      | Return first =>
          match getitem first (KStr (lit "message")) with
          | Raise e => Raise e
          | Return message => getitem message (KStr (lit "content"))
          end
      end
  end.

(** The message of the malformed-response error for a parsed body. *)
Definition malformed_response_message (data : value) : pystr :=
  lit "Unexpected response format from API: " ++ json_dumps (Some 2%nat) data.

(** The message of the error for a status other than 200. *)
Definition http_status_message (response : Response) : pystr :=
  lit "GitHub Models API returned " ++ int_str (status_code response)
  ++ lit ": " ++ text response.

(** A world that differs from [w] in the variable [GITHUB_TOKEN] only,
    which is unset or set to [value]. *)
Definition with_github_token (w : World) (value : option pystr) : World :=
  {| environ := fun name =>
       if PyStr.eqb name (lit "GITHUB_TOKEN") then value else environ w name;
     network := network w;
     files := files w;
     unicode_printable := unicode_printable w;
     stdout_encodes := stdout_encodes w |}.

(** *** Simulated runs *)

(** A quoted JSON name, for writing bodies down. *)
Definition quoted (s : string) : pystr := [dquote] ++ lit s ++ [dquote].

(** UTF-8 writes every code point but the surrogates. *)
Definition utf8_encodes (c : N) : bool :=
  negb ((0xd800 <=? c) && (c <=? 0xdfff))%N.

(** A test double: [GITHUB_TOKEN] is [env_token], every request gets
    [answer], the only file is [diff.txt] with content [diff], standard
    output is UTF-8. The runs below print ASCII only. *)
Definition simulated (env_token : option pystr) (answer : post_answer)
  (diff : pystr) : World :=
  {| environ := fun name =>
       if PyStr.eqb name (lit "GITHUB_TOKEN") then env_token else None;
     network := fun _ => answer;
     files := fun path =>
       if PyStr.eqb path (lit "diff.txt") then Content diff
       else Unreadable (lit "[Errno 2] No such file or directory: '"
                        ++ path ++ lit "'");
     unicode_printable := fun _ => false;
     stdout_encodes := utf8_encodes |}.

Definition sample_diff : pystr := lit "+x = 1" ++ [0x0a%N].

(** Status 200, body [{"choices":[{"message":{"content":"Hello"}}]}]. *)
Definition hello_response : Response :=
  {| status_code := 200;
     text := lit "{" ++ quoted "choices" ++ lit ":[{" ++ quoted "message"
             ++ lit ":{" ++ quoted "content" ++ lit ":" ++ quoted "Hello"
             ++ lit "}}]}";
     json_body :=
       Some (VDict [ (lit "choices",
                      VList [ VDict [ (lit "message",
                                       VDict [ (lit "content",
                                                VStr (lit "Hello")) ]) ] ]) ]) |}.


(** Status 404, body [not found]. *)
Definition not_found_response : Response :=
  {| status_code := 404;
     text := lit "not found";
     json_body := None |}.

(** Status 200, body [{"choices":[]}]. *)
Definition no_choices_body : pystr := lit "{" ++ quoted "choices" ++ lit ":[]}".

Definition no_choices_response : Response :=
  {| status_code := 200;
     text := no_choices_body;
     json_body := Some (VDict [ (lit "choices", VList []) ]) |}.

(** Status 200, body [{"choices":null}]. *)
Definition null_choices_response : Response :=
  {| status_code := 200;
     text := lit "{" ++ quoted "choices" ++ lit ":null}";
     json_body := Some (VDict [ (lit "choices", VNone) ]) |}.

(** Status 200, body [<html>], which is not JSON. *)
Definition html_response : Response :=
  {| status_code := 200;
     text := lit "<html>";
     json_body := None |}.

(** Status 200, body [{"choices":[]}], as [json.dumps] with [indent=2]
    writes it back: on three lines, a space after the colon. *)
Definition no_choices_indented : pystr :=
  lit "{" ++ [0x0a%N] ++ lit "  " ++ quoted "choices" ++ lit ": []"
  ++ [0x0a%N] ++ lit "}".

Definition sample_token : pystr := lit "ghp_example".

(** The simulated world of the runs below: the credential comes from the
    environment, the diff from [diff.txt]. *)
Definition sim (answer : post_answer) : World :=
  simulated (Some sample_token) answer sample_diff.

Definition sample_argv : list pystr := [lit "review.py"; lit "diff.txt"].

(** A printed line. *)
Definition line (s : pystr) : pystr := s ++ [0x0a%N].


(** *** Vocabulary of the further properties *)




(** Every code point is in ASCII. *)
Definition ascii_only (s : pystr) : bool := forallb (fun c => (c <? 0x80)%N) s.



(** Status 200, body [{}]. *)
Definition empty_object_response : Response :=
  {| status_code := 200;
     text := lit "{}";
     json_body := Some (VDict []) |}.


(** Status 200, content the one-character string [\ud83d], a surrogate
    with no partner, which UTF-8 cannot encode. *)
Definition surrogate_response : Response :=
  {| status_code := 200;
     text := lit "{" ++ quoted "choices" ++ lit ":[{" ++ quoted "message"
             ++ lit ":{" ++ quoted "content" ++ lit ":" ++ quoted "\ud83d"
             ++ lit "}}]}";
     json_body :=
       Some (VDict [ (lit "choices",
                      VList [ VDict [ (lit "message",
                                       VDict [ (lit "content",
                                                VStr [0xd83d%N]) ]) ] ]) ]) |}.

(** ** Text *)

Lemma startswith_spec (s prefix : pystr) :
  startswith s prefix = true <-> exists post, s = prefix ++ post.
Proof.
  revert s; induction prefix as [|p prefix IH]; intros s; simpl.
  - split; [intros _; exists s; reflexivity | reflexivity].
  - destruct s as [|c s].
    + split; [discriminate | intros [post H]; discriminate].
    + rewrite andb_true_iff, N.eqb_eq, IH. split.
      * intros [-> [post ->]]. exists post; reflexivity.
      * intros [post H]. injection H as -> ->. split; [reflexivity | eauto].
Qed.

Lemma str_in_spec (needle hay : pystr) :
  str_in needle hay = true <-> contains needle hay.
Proof.
  unfold contains. induction hay as [|c hay IH]; simpl.
  - rewrite orb_false_r, startswith_spec. split.
    + intros [post H]. exists [], post. exact H.
    + intros [pre [post H]]. destruct pre; simpl in H.
      * exists post; exact H.
      * discriminate.
  - rewrite orb_true_iff, startswith_spec, IH. split.
    + intros [[post H] | [pre [post H]]].
      * exists [], post; exact H.
      * exists (c :: pre), post. simpl. now rewrite H.
    + intros [pre [post H]]. destruct pre as [|c' pre]; simpl in H.
      * left. exists post; exact H.
      * right. injection H as _ H. exists pre, post; exact H.
Qed.

Lemma contains_app_l (needle hay rest : pystr) :
  contains needle hay -> contains needle (hay ++ rest).
Proof.
  intros [pre [post ->]]. exists pre, (post ++ rest).
  now rewrite <- !app_assoc.
Qed.

Lemma contains_app_r (needle hay front : pystr) :
  contains needle hay -> contains needle (front ++ hay).
Proof.
  intros [pre [post ->]]. exists (front ++ pre), post.
  now rewrite <- !app_assoc.
Qed.

Lemma contains_refl (s : pystr) : contains s s.
Proof. exists [], []. simpl. now rewrite app_nil_r. Qed.

Lemma contains_nil (s : pystr) : contains [] s.
Proof. exists [], s. reflexivity. Qed.

Lemma lstrip_blank (s rest : pystr) :
  blank s = true -> lstrip (s ++ rest) = lstrip rest.
Proof.
  unfold blank. induction s as [|c s IH]; simpl; [reflexivity|].
  destruct (isspace c); simpl; [exact IH | discriminate].
Qed.

Lemma lstrip_not_blank (s rest : pystr) :
  blank s = false -> lstrip (s ++ rest) = lstrip s ++ rest.
Proof.
  unfold blank. induction s as [|c s IH]; simpl; [discriminate|].
  destruct (isspace c); simpl; [exact IH | reflexivity].
Qed.

Lemma blank_rev (s : pystr) : blank (rev s) = blank s.
Proof.
  unfold blank. induction s as [|c s IH]; simpl; [reflexivity|].
  rewrite forallb_app, IH. simpl. rewrite andb_true_r. apply andb_comm.
Qed.

Lemma blank_app (a b : pystr) : blank (a ++ b) = blank a && blank b.
Proof. apply forallb_app. Qed.

Lemma rstrip_blank (s tail : pystr) :
  blank tail = true -> rstrip (s ++ tail) = rstrip s.
Proof.
  intros H. unfold rstrip. rewrite rev_app_distr, lstrip_blank; [reflexivity|].
  now rewrite blank_rev.
Qed.

Lemma rstrip_not_blank (s tail : pystr) :
  blank tail = false -> rstrip (s ++ tail) = s ++ rstrip tail.
Proof.
  intros H. unfold rstrip. rewrite rev_app_distr, lstrip_not_blank.
  - now rewrite rev_app_distr, rev_involutive.
  - now rewrite blank_rev.
Qed.

Lemma lstrip_all_blank (s : pystr) : blank s = true -> lstrip s = [].
Proof.
  intros H. rewrite <- (app_nil_r s). now rewrite lstrip_blank.
Qed.

Lemma rstrip_all_blank (s : pystr) : blank s = true -> rstrip s = [].
Proof.
  intros H. unfold rstrip. rewrite lstrip_all_blank; [reflexivity|].
  now rewrite blank_rev.
Qed.

Lemma lstrip_truthy (s : pystr) : blank s = false -> truthy (lstrip s) = true.
Proof.
  unfold blank. induction s as [|c s IH]; simpl; [discriminate|].
  destruct (isspace c) eqn:E; simpl; [exact IH | reflexivity].
Qed.

Lemma blank_lstrip (s : pystr) : blank (lstrip s) = blank s.
Proof.
  unfold blank. induction s as [|c s IH]; simpl; [reflexivity|].
  destruct (isspace c) eqn:E; simpl; [exact IH | now rewrite E].
Qed.

(** A diff is rejected by the first guard exactly when it is blank. *)
Lemma strip_truthy (s : pystr) : truthy (strip s) = negb (blank s).
Proof.
  unfold strip, rstrip. destruct (blank s) eqn:E; simpl.
  - rewrite (lstrip_all_blank s E). reflexivity.
  - assert (H : blank (rev (lstrip s)) = false)
      by now rewrite blank_rev, blank_lstrip.
    apply lstrip_truthy in H.
    destruct (lstrip (rev (lstrip s))) as [|c r] eqn:E2; [discriminate|].
    simpl. now destruct (rev r ++ [c]) eqn:E3; [destruct (rev r); discriminate|].
Qed.

(** ** The prompt *)

Lemma prompt_template_shape :
  prompt_template = [0x0a%N] ++ prompt_instructions ++ [0x0a%N].
Proof. vm_compute. reflexivity. Qed.

(** Stripping a template that wraps non-blank instructions [P] in line
    breaks and ends with the diff: the leading break goes, and so does every
    trailing white space, that of the diff included. *)
Lemma strip_template (P d : pystr) :
  blank P = false -> lstrip P = P -> rstrip P = P ->
  strip (([0x0a%N] ++ P ++ [0x0a%N]) ++ d ++ [0x0a%N])
  = P ++ rstrip (0x0a%N :: d).
Proof.
  intros Hnb Hl Hr. unfold strip.
  replace (([0x0a%N] ++ P ++ [0x0a%N]) ++ d ++ [0x0a%N])
    with ([0x0a%N] ++ P ++ (0x0a%N :: d) ++ [0x0a%N])
    by (now rewrite <- !app_assoc).
  rewrite lstrip_blank by reflexivity.
  rewrite lstrip_not_blank, Hl by exact Hnb.
  rewrite app_assoc, rstrip_blank by reflexivity.
  destruct (blank (0x0a%N :: d)) eqn:E.
  - rewrite rstrip_blank, Hr by exact E.
    now rewrite (rstrip_all_blank _ E), app_nil_r.
  - now rewrite rstrip_not_blank.
Qed.

Lemma build_prompt_eq (diff_text : pystr) :
  build_prompt diff_text
  = prompt_instructions ++ rstrip (0x0a%N :: diff_text).
Proof.
  unfold build_prompt. rewrite prompt_template_shape.
  apply strip_template; vm_compute; reflexivity.
Qed.

Lemma rstrip_cons_newline (d : pystr) :
  contains (rstrip d) (rstrip (0x0a%N :: d)).
Proof.
  destruct (blank d) eqn:E.
  - rewrite (rstrip_all_blank d E). apply contains_nil.
  - change (0x0a%N :: d) with ([0x0a%N] ++ d).
    rewrite rstrip_not_blank by exact E.
    apply contains_app_r, contains_refl.
Qed.

Lemma headings_in_instructions :
  forallb (fun h => str_in h prompt_instructions) headings = true.
Proof. vm_compute. reflexivity. Qed.

(** C3, as stated, fails on a diff that ends with a line break, as every
    diff produced by git does: [strip] removes the break with the rest of the
    trailing white space, and the text [+x = 1] followed by a line break
    occurs nowhere in the prompt. *)
Lemma build_prompt_drops_trailing_newline :
  ~ (contains sample_diff (build_prompt sample_diff)
     /\ Forall (fun h => contains h (build_prompt sample_diff)) headings).
Proof.
  intros [H _]. apply str_in_spec in H. vm_compute in H. discriminate.
Qed.

(** C3, amended: for every diff text, the empty one included, [build_prompt]
    returns the instructions followed by a line break and the diff text
    without its trailing white space (nothing after [Diff:] when the diff is
    blank); so the prompt contains the diff text up to its trailing white
    space verbatim, and all four section headings. *)
Theorem build_prompt_contains_rstripped_diff (diff_text : pystr) :
  build_prompt diff_text
  = prompt_instructions ++ rstrip (0x0a%N :: diff_text)
  /\ contains (rstrip diff_text) (build_prompt diff_text)
  /\ Forall (fun h => contains h (build_prompt diff_text)) headings.
Proof.
  rewrite build_prompt_eq. split; [reflexivity | split].
  - apply contains_app_r, rstrip_cons_newline.
  - apply Forall_forall. intros h Hin.
    apply contains_app_l, str_in_spec.
    pose proof headings_in_instructions as Hall.
    rewrite forallb_forall in Hall. exact (Hall h Hin).
Qed.

(** A diff that does not end in white space is embedded whole. *)
Lemma build_prompt_verbatim (diff_text : pystr) :
  rstrip diff_text = diff_text ->
  contains diff_text (build_prompt diff_text).
Proof.
  intros H. rewrite <- H at 1.
  rewrite build_prompt_eq. apply contains_app_r, rstrip_cons_newline.
Qed.

(** ** Running the client *)

#[local] Arguments lit : simpl never.
#[local] Arguments build_prompt : simpl never.
#[local] Arguments json_dumps : simpl never.
#[local] Arguments int_str : simpl never.
#[local] Arguments py_str : simpl never.
#[local] Arguments strip : simpl never.

(** The loop over the parts raises nothing, causes no event, and appends to
    [parts] what the specification says of each element. *)
Lemma collect_parts_run (w : World) (items : list value) (parts : list pystr) :
  collect_parts items parts w
  = ([], Return (parts ++ map (spec_part_text (unicode_printable w)) items)).
Proof.
  revert parts. induction items as [|part rest IH]; intros parts.
  - cbn. unfold ret. now rewrite app_nil_r.
  - cbn [collect_parts map].
    replace (parts ++ spec_part_text (unicode_printable w) part
               :: map (spec_part_text (unicode_printable w)) rest)
      with ((parts ++ [spec_part_text (unicode_printable w) part])
              ++ map (spec_part_text (unicode_printable w)) rest)
      by (now rewrite <- app_assoc).
    destruct part as [| b | i | f | s | l | d]; cbn [isinstance_dict andb];
      try (unfold bind, str, ask, ret; cbn; rewrite IH; reflexivity).
    unfold key_in, spec_part_text.
    destruct (dict_get d (lit "text")) as [entry|] eqn:E.
    + unfold bind, str, ask, ret, subscript, lift, getitem. rewrite E. cbn.
      rewrite IH. reflexivity.
    + unfold bind, str, ask, ret. cbn. rewrite IH. reflexivity.
Qed.

Lemma missing_credential_message :
  AIReviewError
    (lit "Missing GITHUB_TOKEN environment variable. "
     ++ lit "Set it to a GitHub PAT with models:read permissions.")
  = missing_credential_error.
Proof. vm_compute. reflexivity. Qed.

(** The first guard. *)
Lemma review_diff_blank (w : World) (d m : pystr) (tok : option pystr) :
  blank d = true ->
  review_diff d m tok w = ([], Raise empty_input_error).
Proof.
  intros H. unfold review_diff. rewrite strip_truthy, H. reflexivity.
Qed.

(** The second guard. *)
Lemma review_diff_no_credential (w : World) (d m : pystr) (tok : option pystr) :
  blank d = false ->
  token_truthy (credential w tok) = false ->
  review_diff d m tok w = (lookup_trace tok, Raise missing_credential_error).
Proof.
  intros Hd Ht. unfold review_diff. rewrite strip_truthy, Hd. cbn [negb].
  rewrite missing_credential_message.
  destruct tok as [t|]; cbn [credential lookup_trace] in *.
  - unfold bind, ret, raise. cbn in *. rewrite Ht. reflexivity.
  - unfold bind, ret, raise, os_getenv, emit, ask. cbn in *. rewrite Ht.
    reflexivity.
Qed.

(** Past the guards: one request, then the extraction. *)
Lemma review_diff_sent (w : World) (d m t : pystr) (tok : option pystr) :
  blank d = false ->
  credential w tok = Some t ->
  truthy t = true ->
  review_diff d m tok w
  = match network w (request_of d m t) with
    | Responds r =>
        (lookup_trace tok ++ [HttpPost (request_of d m t)]
           ++ fst (extract_review r w),
         snd (extract_review r w))
    | Fails reason =>
        (lookup_trace tok ++ [HttpPost (request_of d m t)],
         Raise (AIReviewError (lit "HTTP request failed: " ++ reason)))
    | Crashes e _ =>
        (lookup_trace tok ++ [HttpPost (request_of d m t)], Raise e)
    end.
Proof.
  intros Hd Hc Ht. unfold review_diff. rewrite strip_truthy, Hd. cbn [negb].
  fold (request_of d m t).
  destruct tok as [t'|]; cbn [credential lookup_trace] in *.
  - injection Hc as ->.
    unfold bind at 1. unfold ret at 1. cbn [token_truthy]. rewrite Ht. cbn [negb].
    fold (request_of d m t).
    unfold bind, attempt, requests_post, emit, ask, ret, raise. cbn.
    destruct (network w (request_of d m t)) as [r|reason|e other]; cbn.
    + destruct (extract_review r w). reflexivity.
    + reflexivity.
    + destruct e; try discriminate other; reflexivity.
  - unfold bind at 1. unfold os_getenv, bind, emit, ask, ret. cbn.
    rewrite Hc. cbn [token_truthy]. rewrite Ht. cbn [negb].
    fold (request_of d m t).
    unfold attempt, requests_post, bind, emit, ask, ret, raise. cbn.
    destruct (network w (request_of d m t)) as [r|reason|e other]; cbn.
    + destruct (extract_review r w). reflexivity.
    + reflexivity.
    + destruct e; try discriminate other; reflexivity.
Qed.

(** The four subscripts neither look at the world nor leave a trace. *)
Lemma content_path_run (w : World) (data : value) :
  content_path data w = ([], content_of data).
Proof.
  unfold content_path, content_of, bind, subscript, lift.
  destruct (getitem data (KStr (lit "choices"))) as [choices|e]; [|reflexivity].
  destruct (getitem choices (KInt 0)) as [first|e]; [|reflexivity].
  destruct (getitem first (KStr (lit "message"))) as [message|e]; [|reflexivity].
  destruct (getitem message (KStr (lit "content"))); reflexivity.
Qed.

Lemma extract_review_status (w : World) (r : Response) :
  status_code r <> 200%Z ->
  extract_review r w = ([], Raise (AIReviewError (http_status_message r))).
Proof.
  intros H. unfold extract_review.
  apply Z.eqb_neq in H. rewrite H. reflexivity.
Qed.

Lemma extract_review_not_json (w : World) (r : Response) :
  status_code r = 200%Z -> json_body r = None ->
  extract_review r w = ([], Raise JSONDecodeError).
Proof.
  intros H J. unfold extract_review, response_json, bind.
  rewrite H, J. reflexivity.
Qed.

(** Status 200 and a parsed body: the outcome follows the content. *)
Lemma extract_review_json (w : World) (r : Response) (data : value) :
  status_code r = 200%Z -> json_body r = Some data ->
  extract_review r w
  = ([], match content_of data with
         | Return (VStr s) => Return s
         | Return (VList items) =>
             Return (spec_sequence_text (unicode_printable w) items)
         | Return v => Return (py_str (unicode_printable w) v)
         | Raise KeyError | Raise IndexError =>
             Raise (AIReviewError (malformed_response_message data))
         | Raise e => Raise e
         end).
Proof.
  intros H J. unfold extract_review, response_json.
  rewrite H, J. cbn [Z.eqb Pos.eqb negb].
  unfold bind at 1. unfold ret at 1. cbn [app].
  unfold bind at 1. unfold attempt. rewrite content_path_run.
  unfold bind, ret, raise, str, ask. cbn [app].
  destruct (content_of data) as [v|e].
  - destruct v; try reflexivity.
    rewrite collect_parts_run. reflexivity.
  - destruct e; reflexivity.
Qed.

(** Nothing [extract_review] does can be seen from outside. *)
Lemma extract_review_silent (w : World) (r : Response) :
  fst (extract_review r w) = [].
Proof.
  destruct (Z.eq_dec (status_code r) 200) as [H|H].
  - destruct (json_body r) as [data|] eqn:J.
    + now rewrite (extract_review_json w r data H J).
    + now rewrite (extract_review_not_json w r H J).
  - now rewrite (extract_review_status w r H).
Qed.

(** Of the world, [extract_review] uses the Unicode table only. *)
Lemma extract_review_world (w w' : World) (r : Response) :
  unicode_printable w = unicode_printable w' ->
  extract_review r w = extract_review r w'.
Proof.
  intros U. destruct (Z.eq_dec (status_code r) 200) as [H|H].
  - destruct (json_body r) as [data|] eqn:J.
    + rewrite (extract_review_json w r data H J), (extract_review_json w' r data H J).
      now rewrite U.
    + now rewrite !(extract_review_not_json _ r H J).
  - now rewrite !(extract_review_status _ r H).
Qed.

(** ** The guards of [review_diff] *)

(** C7: a diff text that is empty or all white space makes [review_diff]
    raise the empty-input error, whatever the model and the token, and the
    run causes no event at all: no request is sent, the environment is not
    read. *)
Theorem review_diff_rejects_blank_diff
  (w : World) (diff_text model : pystr) (token : option pystr) :
  blank diff_text = true ->
  review_diff diff_text model token w = ([], Raise empty_input_error).
Proof. apply review_diff_blank. Qed.

Lemma review_diff_rejects_blank_diff_witness :
  review_diff (lit "  " ++ [0x0a%N; 0x09%N; 0xa0%N]) DEFAULT_MODEL
    (Some sample_token) (sim (Responds hello_response))
  = ([], Raise empty_input_error).
Proof.
  apply (review_diff_rejects_blank_diff (sim (Responds hello_response))
           (lit "  " ++ [0x0a%N; 0x09%N; 0xa0%N]) DEFAULT_MODEL
           (Some sample_token)).
  reflexivity.
Defined.

(** C8: for a diff text that is not blank, with no token argument and
    [GITHUB_TOKEN] unset, [review_diff] raises the missing-credential error;
    the only event of the run is the lookup of the variable, so no request
    is sent. *)
Theorem review_diff_missing_credential (w : World) (diff_text model : pystr) :
  blank diff_text = false ->
  environ w (lit "GITHUB_TOKEN") = None ->
  review_diff diff_text model None w
  = ([Getenv (lit "GITHUB_TOKEN")], Raise missing_credential_error)
  /\ existsb is_http_post (fst (review_diff diff_text model None w)) = false.
Proof.
  intros Hd He.
  assert (E : review_diff diff_text model None w
              = ([Getenv (lit "GITHUB_TOKEN")], Raise missing_credential_error)).
  { apply (review_diff_no_credential w diff_text model None Hd).
    cbn [credential]. rewrite He. reflexivity. }
  rewrite E. split; reflexivity.
Qed.

Lemma review_diff_missing_credential_witness :
  review_diff sample_diff DEFAULT_MODEL None
    (simulated None (Responds hello_response) sample_diff)
  = ([Getenv (lit "GITHUB_TOKEN")], Raise missing_credential_error)
  /\ existsb is_http_post
       (fst (review_diff sample_diff DEFAULT_MODEL None
               (simulated None (Responds hello_response) sample_diff)))
     = false.
Proof.
  apply (review_diff_missing_credential
           (simulated None (Responds hello_response) sample_diff)
           sample_diff DEFAULT_MODEL); reflexivity.
Defined.

(** ** What [review_diff] makes of a response *)

(** Past the guards and given a response, the run is the lookup of the
    credential, the request, and the outcome of [extract_review]. *)
Lemma review_diff_responded
  (w : World) (d m t : pystr) (tok : option pystr) (r : Response) :
  blank d = false ->
  credential w tok = Some t ->
  truthy t = true ->
  network w (request_of d m t) = Responds r ->
  review_diff d m tok w
  = (lookup_trace tok ++ [HttpPost (request_of d m t)],
     snd (extract_review r w)).
Proof.
  intros Hd Hc Ht Hn.
  rewrite (review_diff_sent w d m t tok Hd Hc Ht), Hn.
  now rewrite extract_review_silent.
Qed.

(** A body whose path to the content stops at a missing key or an empty
    sequence gives the malformed-response error, with the body written back
    by [json.dumps]. *)
Lemma review_diff_malformed
  (w : World) (d m t : pystr) (tok : option pystr) (r : Response)
  (data : value) :
  blank d = false ->
  credential w tok = Some t ->
  truthy t = true ->
  network w (request_of d m t) = Responds r ->
  status_code r = 200%Z ->
  json_body r = Some data ->
  content_of data = Raise KeyError \/ content_of data = Raise IndexError ->
  review_diff d m tok w
  = (lookup_trace tok ++ [HttpPost (request_of d m t)],
     Raise (AIReviewError (malformed_response_message data))).
Proof.
  intros Hd Hc Ht Hn Hs Hj He.
  rewrite (review_diff_responded w d m t tok r Hd Hc Ht Hn).
  rewrite (extract_review_json w r data Hs Hj).
  destruct He as [-> | ->]; reflexivity.
Qed.





(** C6: a response with a status other than 200 makes [review_diff] raise
    the tagged error with a message that holds the status code in decimal
    and the raw body. *)
Theorem review_diff_reports_http_status
  (w : World) (diff_text model t : pystr) (token : option pystr)
  (r : Response) :
  blank diff_text = false ->
  credential w token = Some t ->
  truthy t = true ->
  network w (request_of diff_text model t) = Responds r ->
  status_code r <> 200%Z ->
  review_diff diff_text model token w
  = (lookup_trace token ++ [HttpPost (request_of diff_text model t)],
     Raise (AIReviewError (http_status_message r)))
  /\ contains (int_str (status_code r)) (http_status_message r)
  /\ contains (text r) (http_status_message r).
Proof.
  intros Hd Hc Ht Hn Hs. split; [|split].
  - rewrite (review_diff_responded w diff_text model t token r Hd Hc Ht Hn).
    now rewrite (extract_review_status w r Hs).
  - unfold http_status_message.
    apply contains_app_r, contains_app_l, contains_refl.
  - unfold http_status_message.
    apply contains_app_r, contains_app_r, contains_app_r, contains_refl.
Qed.

(** The run of C6: status 404 and body [not found]. *)
Lemma review_diff_not_found :
  review_diff sample_diff DEFAULT_MODEL None (sim (Responds not_found_response))
  = ([Getenv (lit "GITHUB_TOKEN");
      HttpPost (request_of sample_diff DEFAULT_MODEL sample_token)],
     Raise (AIReviewError (lit "GitHub Models API returned 404: not found")))
  /\ contains (lit "404") (lit "GitHub Models API returned 404: not found")
  /\ contains (lit "not found")
       (lit "GitHub Models API returned 404: not found").
Proof.
  apply (review_diff_reports_http_status (sim (Responds not_found_response))
           sample_diff DEFAULT_MODEL sample_token None not_found_response);
    solve [reflexivity | discriminate].
Defined.

(** ** Bodies of the wrong shape *)

Lemma no_choices_message :
  malformed_response_message (VDict [ (lit "choices", VList []) ])
  = lit "Unexpected response format from API: " ++ no_choices_indented.
Proof. vm_compute. reflexivity. Qed.

(** C2, as stated, fails: for status 200 and body [{"choices":[]}] the
    message of the error does not hold the raw body. The message is built
    from the parsed body, written back with [indent=2], and the raw text,
    which has no line break and no space, does not occur in it. *)
Lemma no_choices_message_lacks_raw_body :
  ~ exists msg,
      snd (review_diff sample_diff DEFAULT_MODEL None
             (sim (Responds no_choices_response)))
      = Raise (AIReviewError msg)
      /\ contains no_choices_body msg.
Proof.
  intros [msg [H C]]. vm_compute in H. injection H as <-.
  apply str_in_spec in C. vm_compute in C. discriminate.
Qed.

(** C2, amended: for status 200 and body [{"choices":[]}], [review_diff]
    raises the malformed-response error, and the message is
    [Unexpected response format from API: ] followed by the parsed body as
    [json.dumps] writes it with [indent=2], that is an opening brace, a line
    break, two spaces, ["choices": []], a line break and a closing brace. *)
Theorem review_diff_no_choices
  (w : World) (diff_text model t : pystr) (token : option pystr) :
  blank diff_text = false ->
  credential w token = Some t ->
  truthy t = true ->
  network w (request_of diff_text model t) = Responds no_choices_response ->
  review_diff diff_text model token w
  = (lookup_trace token ++ [HttpPost (request_of diff_text model t)],
     Raise (AIReviewError
              (lit "Unexpected response format from API: "
               ++ no_choices_indented)))
  /\ contains no_choices_indented
       (lit "Unexpected response format from API: " ++ no_choices_indented).
Proof.
  intros Hd Hc Ht Hn. split.
  - rewrite <- no_choices_message.
    apply (review_diff_malformed w diff_text model t token
             no_choices_response (VDict [ (lit "choices", VList []) ])
             Hd Hc Ht Hn); try reflexivity.
    right. reflexivity.
  - apply contains_app_r, contains_refl.
Qed.

Lemma review_diff_no_choices_witness :
  review_diff sample_diff DEFAULT_MODEL None
    (sim (Responds no_choices_response))
  = ([Getenv (lit "GITHUB_TOKEN");
      HttpPost (request_of sample_diff DEFAULT_MODEL sample_token)],
     Raise (AIReviewError
              (lit "Unexpected response format from API: "
               ++ no_choices_indented)))
  /\ contains no_choices_indented
       (lit "Unexpected response format from API: " ++ no_choices_indented).
Proof.
  apply (review_diff_no_choices (sim (Responds no_choices_response))
           sample_diff DEFAULT_MODEL sample_token None); reflexivity.
Defined.

(** C1 at a failing input: status 200 and body [{"choices":null}], a body
    that parses and whose [choices] is not a sequence. The subscript [[0]] on
    [None] raises [TypeError], which the handler for [KeyError] and
    [IndexError] lets through: the caller gets an untagged exception. *)
Theorem review_diff_null_choices_type_error :
  review_diff sample_diff DEFAULT_MODEL None
    (sim (Responds null_choices_response))
  = ([Getenv (lit "GITHUB_TOKEN");
      HttpPost (request_of sample_diff DEFAULT_MODEL sample_token)],
     Raise TypeError).
Proof. vm_compute. reflexivity. Qed.

(** The same happens when the body is a JSON array or a scalar. *)
Lemma review_diff_array_body_type_error :
  snd (review_diff sample_diff DEFAULT_MODEL None
         (sim (Responds {| status_code := 200;
                           text := lit "[]";
                           json_body := Some (VList []) |})))
  = Raise TypeError.
Proof. vm_compute. reflexivity. Qed.

(** ** An explicit token *)

Lemma review_diff_explicit_token (w : World) (d m t : pystr) :
  review_diff d m (Some t) w
  = if blank d then ([], Raise empty_input_error)
    else if truthy t then
      match network w (request_of d m t) with
      | Responds r =>
          ([HttpPost (request_of d m t)], snd (extract_review r w))
      | Fails reason =>
          ([HttpPost (request_of d m t)],
           Raise (AIReviewError (lit "HTTP request failed: " ++ reason)))
      | Crashes e _ => ([HttpPost (request_of d m t)], Raise e)
      end
    else ([], Raise missing_credential_error).
Proof.
  destruct (blank d) eqn:Hd.
  - now apply review_diff_blank.
  - destruct (truthy t) eqn:Ht.
    + rewrite (review_diff_sent w d m t (Some t) Hd eq_refl Ht).
      destruct (network w (request_of d m t)); [|reflexivity|reflexivity].
      now rewrite extract_review_silent.
    + now apply review_diff_no_credential.
Qed.

(** C10, as stated, fails in its last part: with an empty diff, an explicit
    empty token does not give the missing-credential error, since the guard
    on the diff comes first. *)
Lemma empty_token_empty_diff :
  snd (review_diff [] DEFAULT_MODEL (Some [])
         (sim (Responds hello_response)))
  <> Raise missing_credential_error.
Proof. vm_compute. discriminate. Qed.

(** C10, amended: with an explicit token, [review_diff] behaves the same in
    two worlds that differ in the variable [GITHUB_TOKEN] only, and never
    looks the variable up; an explicit empty token gives the
    missing-credential error whatever the variable holds, provided the diff
    is not blank (a blank diff gives the empty-input error first). *)
Theorem explicit_token_ignores_variable
  (w : World) (value : option pystr) (diff_text model t : pystr) :
  review_diff diff_text model (Some t) (with_github_token w value)
  = review_diff diff_text model (Some t) w
  /\ existsb is_getenv (fst (review_diff diff_text model (Some t) w)) = false
  /\ review_diff diff_text model (Some []) w
     = ([], Raise (if blank diff_text then empty_input_error
                   else missing_credential_error)).
Proof.
  rewrite !review_diff_explicit_token. cbn [network with_github_token truthy].
  split; [|split].
  - destruct (blank diff_text); [reflexivity|].
    destruct (truthy t); [|reflexivity].
    destruct (network w (request_of diff_text model t));
      [|reflexivity|reflexivity].
    now rewrite (extract_review_world (with_github_token w value) w r eq_refl).
  - destruct (blank diff_text); [reflexivity|].
    destruct (truthy t); [|reflexivity].
    destruct (network w (request_of diff_text model t)); reflexivity.
  - destruct (blank diff_text); reflexivity.
Qed.

(** ** The command line *)

#[local] Arguments review_diff : simpl never.



(** ** Further properties of the prompt *)

Lemma lstrip_idem (s : pystr) : lstrip (lstrip s) = lstrip s.
Proof.
  induction s as [|c s IH]; simpl; [reflexivity|].
  destruct (isspace c) eqn:E; [exact IH|]. simpl. now rewrite E.
Qed.

Lemma rstrip_idem (s : pystr) : rstrip (rstrip s) = rstrip s.
Proof. unfold rstrip. now rewrite rev_involutive, lstrip_idem. Qed.

Lemma lstrip_nil_blank (s : pystr) : lstrip s = [] -> blank s = true.
Proof.
  intros H. destruct (blank s) eqn:E; [reflexivity|].
  apply lstrip_truthy in E. rewrite H in E. discriminate.
Qed.

Lemma rstrip_nil_blank (s : pystr) : rstrip s = [] -> blank s = true.
Proof.
  unfold rstrip. intros H. rewrite <- blank_rev. apply lstrip_nil_blank.
  apply (f_equal (@rev N)) in H. now rewrite rev_involutive in H.
Qed.

(** What is left of the line break and the diff after [strip]. *)
Lemma rstrip_newline_diff (d : pystr) :
  rstrip (0x0a%N :: d) = if blank d then [] else 0x0a%N :: rstrip d.
Proof.
  destruct (blank d) eqn:E.
  - apply rstrip_all_blank. cbn. exact E.
  - change (0x0a%N :: d) with ([0x0a%N] ++ d).
    now rewrite rstrip_not_blank.
Qed.

Lemma rstrip_eq_blank (d1 d2 : pystr) :
  rstrip d1 = rstrip d2 -> blank d1 = blank d2.
Proof.
  intros H. destruct (blank d1) eqn:E1, (blank d2) eqn:E2; try reflexivity.
  - rewrite (rstrip_all_blank d1 E1) in H. symmetry in H.
    apply rstrip_nil_blank in H. congruence.
  - rewrite (rstrip_all_blank d2 E2) in H.
    apply rstrip_nil_blank in H. congruence.
Qed.

Lemma template_eq_iff (P d1 d2 : pystr) :
  P ++ rstrip (0x0a%N :: d1) = P ++ rstrip (0x0a%N :: d2)
  <-> rstrip d1 = rstrip d2.
Proof.
  rewrite (rstrip_newline_diff d1), (rstrip_newline_diff d2). split.
  - intros H. apply app_inv_head in H.
    destruct (blank d1) eqn:E1, (blank d2) eqn:E2.
    + now rewrite (rstrip_all_blank d1 E1), (rstrip_all_blank d2 E2).
    + discriminate.
    + discriminate.
    + now injection H.
  - intros H. rewrite (rstrip_eq_blank d1 d2 H), H. reflexivity.
Qed.

Lemma template_stripped (P x : pystr) :
  blank P = false -> lstrip P = P -> rstrip P = P ->
  strip (P ++ rstrip x) = P ++ rstrip x.
Proof.
  intros Hnb Hl Hr. unfold strip. rewrite lstrip_not_blank, Hl by exact Hnb.
  destruct (blank (rstrip x)) eqn:E.
  - pose proof (rstrip_all_blank _ E) as E'. rewrite rstrip_idem in E'.
    rewrite E', app_nil_r. exact Hr.
  - rewrite rstrip_not_blank by exact E. now rewrite rstrip_idem.
Qed.

(** X1: two diffs give the same prompt exactly when they are equal up to
    trailing white space: the prompt forgets the trailing white space of the
    diff and nothing else. *)
Theorem build_prompt_eq_iff (d1 d2 : pystr) :
  build_prompt d1 = build_prompt d2 <-> rstrip d1 = rstrip d2.
Proof.
  rewrite (build_prompt_eq d1), (build_prompt_eq d2).
  apply template_eq_iff.
Qed.

(** X2: the prompt never begins or ends with white space, and it always
    opens with the first words of the instructions, whatever the diff. *)
Theorem build_prompt_stripped (diff_text : pystr) :
  strip (build_prompt diff_text) = build_prompt diff_text
  /\ startswith (build_prompt diff_text)
       (lit "You are an expert senior code and content reviewer.") = true.
Proof.
  rewrite (build_prompt_eq diff_text). split.
  - apply template_stripped; vm_compute; reflexivity.
  - apply startswith_spec.
    assert (Hs : startswith prompt_instructions
                   (lit "You are an expert senior code and content reviewer.")
                 = true) by (vm_compute; reflexivity).
    apply startswith_spec in Hs. destruct Hs as [post Hs].
    exists (post ++ rstrip (0x0a%N :: diff_text)).
    rewrite app_assoc. f_equal. exact Hs.
Qed.

(** ** Further properties of the client *)

Lemma review_diff_events
  (w : World) (diff_text model : pystr) (token : option pystr) :
  fst (review_diff diff_text model token w)
  = if blank diff_text then []
    else lookup_trace token
         ++ match credential w token with
            | Some t =>
                if truthy t then [HttpPost (request_of diff_text model t)]
                else []
            | None => []
            end.
Proof.
  destruct (blank diff_text) eqn:Hd.
  - now rewrite (review_diff_blank w diff_text model token Hd).
  - destruct (credential w token) as [t|] eqn:Hc.
    + destruct (truthy t) eqn:Ht.
      * rewrite (review_diff_sent w diff_text model t token Hd Hc Ht).
        destruct (network w (request_of diff_text model t)); cbn [fst];
          [now rewrite extract_review_silent | reflexivity | reflexivity].
      * rewrite (review_diff_no_credential w diff_text model token Hd)
          by (rewrite Hc; exact Ht).
        cbn [fst]. now rewrite app_nil_r.
    + rewrite (review_diff_no_credential w diff_text model token Hd)
        by (rewrite Hc; reflexivity).
      cbn [fst]. now rewrite app_nil_r.
Qed.

(** X3: the events of a run of [review_diff], in order: nothing for a blank
    diff; otherwise the lookup of [GITHUB_TOKEN] when no token is passed,
    then, when the credential is not empty, the one request. There is no
    second request, and nothing is printed or opened. *)
Theorem review_diff_trace
  (w : World) (diff_text model : pystr) (token : option pystr) :
  fst (review_diff diff_text model token w)
  = if blank diff_text then []
    else lookup_trace token
         ++ match credential w token with
            | Some t =>
                if truthy t then [HttpPost (request_of diff_text model t)]
                else []
            | None => []
            end.
Proof. apply review_diff_events. Qed.

(** X4: when [requests.post] raises a [RequestException], [review_diff]
    raises the tagged error with [HTTP request failed: ] and the text of the
    exception; the request is not tried again. *)
Theorem review_diff_transport_failure
  (w : World) (diff_text model t : pystr) (token : option pystr)
  (reason : pystr) :
  blank diff_text = false ->
  credential w token = Some t ->
  truthy t = true ->
  network w (request_of diff_text model t) = Fails reason ->
  review_diff diff_text model token w
  = (lookup_trace token ++ [HttpPost (request_of diff_text model t)],
     Raise (AIReviewError (lit "HTTP request failed: " ++ reason))).
Proof.
  intros Hd Hc Ht Hn.
  now rewrite (review_diff_sent w diff_text model t token Hd Hc Ht), Hn.
Qed.

Lemma review_diff_transport_failure_witness :
  review_diff sample_diff DEFAULT_MODEL None
    (sim (Fails (lit "connection timed out")))
  = ([Getenv (lit "GITHUB_TOKEN");
      HttpPost (request_of sample_diff DEFAULT_MODEL sample_token)],
     Raise (AIReviewError (lit "HTTP request failed: connection timed out"))).
Proof.
  apply (review_diff_transport_failure
           (sim (Fails (lit "connection timed out")))
           sample_diff DEFAULT_MODEL sample_token None
           (lit "connection timed out")); reflexivity.
Defined.



(** X6: a 200 response whose body is not JSON makes [review_diff] end with
    the [JSONDecodeError] of [response.json()], which it does not turn into
    the tagged error. *)
Theorem review_diff_body_not_json
  (w : World) (diff_text model t : pystr) (token : option pystr)
  (r : Response) :
  blank diff_text = false ->
  credential w token = Some t ->
  truthy t = true ->
  network w (request_of diff_text model t) = Responds r ->
  status_code r = 200%Z ->
  json_body r = None ->
  review_diff diff_text model token w
  = (lookup_trace token ++ [HttpPost (request_of diff_text model t)],
     Raise JSONDecodeError).
Proof.
  intros Hd Hc Ht Hn Hs Hj.
  rewrite (review_diff_responded w diff_text model t token r Hd Hc Ht Hn).
  now rewrite (extract_review_not_json w r Hs Hj).
Qed.

Lemma review_diff_body_not_json_witness :
  review_diff sample_diff DEFAULT_MODEL None (sim (Responds html_response))
  = ([Getenv (lit "GITHUB_TOKEN");
      HttpPost (request_of sample_diff DEFAULT_MODEL sample_token)],
     Raise JSONDecodeError).
Proof.
  apply (review_diff_body_not_json (sim (Responds html_response))
           sample_diff DEFAULT_MODEL sample_token None html_response);
    reflexivity.
Defined.

(** X7: with no token argument, a [GITHUB_TOKEN] that is set to the empty
    string counts as missing: [review_diff] raises the missing-credential
    error after the lookup, and sends no request. *)
Theorem review_diff_empty_environment_token
  (w : World) (diff_text model : pystr) :
  blank diff_text = false ->
  environ w (lit "GITHUB_TOKEN") = Some [] ->
  review_diff diff_text model None w
  = ([Getenv (lit "GITHUB_TOKEN")], Raise missing_credential_error).
Proof.
  intros Hd He.
  apply (review_diff_no_credential w diff_text model None Hd).
  cbn [credential]. rewrite He. reflexivity.
Qed.

Lemma review_diff_empty_environment_token_witness :
  review_diff sample_diff DEFAULT_MODEL None
    (simulated (Some []) (Responds hello_response) sample_diff)
  = ([Getenv (lit "GITHUB_TOKEN")], Raise missing_credential_error).
Proof.
  apply (review_diff_empty_environment_token
           (simulated (Some []) (Responds hello_response) sample_diff)
           sample_diff DEFAULT_MODEL); reflexivity.
Defined.

(** X8: for a 200 response with a parsed body, whenever the path
    [choices[0].message.content] stops at a missing key or at an index out of
    range, [review_diff] raises the tagged error, and its message holds the
    whole parsed body as [json.dumps] writes it with [indent=2]. *)
Theorem review_diff_missing_path_tagged
  (w : World) (diff_text model t : pystr) (token : option pystr)
  (r : Response) (data : value) :
  blank diff_text = false ->
  credential w token = Some t ->
  truthy t = true ->
  network w (request_of diff_text model t) = Responds r ->
  status_code r = 200%Z ->
  json_body r = Some data ->
  snd (content_path data w) = Raise KeyError
  \/ snd (content_path data w) = Raise IndexError ->
  review_diff diff_text model token w
  = (lookup_trace token ++ [HttpPost (request_of diff_text model t)],
     Raise (AIReviewError (malformed_response_message data)))
  /\ contains (json_dumps (Some 2%nat) data) (malformed_response_message data).
Proof.
  intros Hd Hc Ht Hn Hs Hj Hp. split.
  - rewrite content_path_run in Hp. cbn [snd] in Hp.
    exact (review_diff_malformed w diff_text model t token r data
             Hd Hc Ht Hn Hs Hj Hp).
  - apply contains_app_r, contains_refl.
Qed.

(** The run with body [{}]: the key [choices] is missing. *)
Lemma review_diff_empty_object :
  review_diff sample_diff DEFAULT_MODEL None
    (sim (Responds empty_object_response))
  = ([Getenv (lit "GITHUB_TOKEN");
      HttpPost (request_of sample_diff DEFAULT_MODEL sample_token)],
     Raise (AIReviewError (lit "Unexpected response format from API: {}")))
  /\ contains (lit "{}") (lit "Unexpected response format from API: {}").
Proof.
  apply (review_diff_missing_path_tagged (sim (Responds empty_object_response))
           sample_diff DEFAULT_MODEL sample_token None empty_object_response
           (VDict [])); try reflexivity.
  left. reflexivity.
Defined.






(** ** The body of the request *)

Lemma ascii_only_app (a b : pystr) :
  ascii_only (a ++ b) = ascii_only a && ascii_only b.
Proof. apply forallb_app. Qed.

Lemma hex_digit_ascii (d : N) : (d < 16)%N -> (hex_digit d <? 0x80)%N = true.
Proof.
  intros H. unfold hex_digit. apply N.ltb_lt.
  destruct (d <? 10)%N eqn:E; [apply N.ltb_lt in E | apply N.ltb_ge in E]; lia.
Qed.

Lemma hex_fixed_ascii (width : nat) (n : N) :
  ascii_only (hex_fixed width n) = true.
Proof.
  revert n. induction width as [|width IH]; intros n; [reflexivity|].
  cbn [hex_fixed]. rewrite ascii_only_app, IH. cbn.
  rewrite hex_digit_ascii; [reflexivity|].
  apply N.mod_lt. discriminate.
Qed.

Lemma json_escape_char_ascii (c : N) : ascii_only (json_escape_char c) = true.
Proof.
  unfold json_escape_char.
  repeat match goal with
    | |- ascii_only (if ?b then _ else _) = true => destruct b eqn:?
    end;
    try reflexivity;
    repeat rewrite ascii_only_app; rewrite ?hex_fixed_ascii; try reflexivity.
  cbn. rewrite andb_true_r. apply N.ltb_lt.
  match goal with
  | H : (_ && _)%bool = true |- _ =>
      apply andb_true_iff in H; destruct H as [_ H]; apply N.leb_le in H
  end.
  lia.
Qed.

Lemma json_string_ascii (s : pystr) : ascii_only (json_string s) = true.
Proof.
  unfold json_string. rewrite !ascii_only_app.
  replace (ascii_only (flat_map json_escape_char s)) with true;
    [reflexivity|].
  symmetry. induction s as [|c s IH]; [reflexivity|].
  cbn [flat_map]. now rewrite ascii_only_app, json_escape_char_ascii, IH.
Qed.

(** The body that [json.dumps(payload)] writes: fixed punctuation around the
    two JSON strings that hold the model and the prompt. *)
Lemma request_body_shape (d m t : pystr) :
  data (request_of d m t)
  = lit "{" ++ json_string (lit "model") ++ lit ": " ++ json_string m
    ++ lit ", " ++ json_string (lit "messages") ++ lit ": [{"
    ++ json_string (lit "role") ++ lit ": " ++ json_string (lit "user")
    ++ lit ", " ++ json_string (lit "content") ++ lit ": "
    ++ json_string (build_prompt d) ++ lit "}]}".
Proof.
  unfold request_of, data, json_dumps.
  cbn [json_encode map join newline_indent item_separator].
  repeat rewrite <- app_assoc. cbn [app]. repeat rewrite <- app_assoc.
  reflexivity.
Qed.

(** X12: the body of the request is JSON text in ASCII only, whatever the
    diff and the model name hold: every character outside the printable
    ASCII range is sent as an escape. *)
Theorem request_body_ascii (diff_text model token : pystr) :
  ascii_only (data (request_of diff_text model token)) = true.
Proof.
  rewrite request_body_shape.
  repeat rewrite ascii_only_app. rewrite !json_string_ascii.
  reflexivity.
Qed.

(** ** Further properties of the command line *)

Lemma argv_second (argv : list pystr) (path : pystr) :
  nth_error argv 1 = Some path ->
  exists prog rest, argv = prog :: path :: rest.
Proof.
  destruct argv as [|prog [|p rest]]; try discriminate.
  intros [= ->]. eauto.
Qed.

(** With a file that reads, [main] is [review_diff] on its text with the
    default model and no token, between the opening of the file and the one
    printed text. *)
Lemma main_reads (argv : list pystr) (w : World) (path d : pystr) :
  nth_error argv 1 = Some path ->
  files w path = Content d ->
  main argv w
  = match review_diff d DEFAULT_MODEL None w with
    | (t, Return review) =>
        if forallb (stdout_encodes w) review then
          (OpenFile path :: t ++ [Print Stdout (line review)], Return 0%Z)
        else (OpenFile path :: t, Raise UnicodeEncodeError)
    | (t, Raise (AIReviewError msg)) =>
        (OpenFile path :: t
           ++ [Print Stderr (line (lit "AI review failed: " ++ msg))],
         Return 2%Z)
    | (t, Raise e) => (OpenFile path :: t, Raise e)
    end.
Proof.
  intros Hp Hf. destruct (argv_second argv path Hp) as [prog [rest ->]].
  unfold main. cbn [List.length Nat.ltb Nat.leb nth].
  unfold bind at 1. unfold attempt at 1.
  unfold _read_file, bind, emit, ask, ret, raise. cbn. rewrite Hf. cbn.
  unfold attempt.
  destruct (review_diff d DEFAULT_MODEL None w) as [t [review|e]]; cbn.
  - unfold print, bind, ask, ret, emit, raise. cbn.
    destruct (forallb (stdout_encodes w) review); cbn;
      rewrite ?app_nil_r; reflexivity.
  - destruct e; cbn; rewrite ?app_nil_r; reflexivity.
Qed.





Lemma main_usage (argv : list pystr) (w : World) :
  (List.length argv < 2)%nat ->
  main argv w
  = ([Print Stderr (line (lit "Usage: python -m bot.review path/to/diff.txt"))],
     Return 1%Z).
Proof.
  intros H. unfold main. apply Nat.ltb_lt in H. rewrite H. reflexivity.
Qed.

Lemma main_unreadable (argv : list pystr) (w : World) (path reason : pystr) :
  nth_error argv 1 = Some path ->
  files w path = Unreadable reason ->
  main argv w
  = ([OpenFile path;
      Print Stderr (line (lit "Error reading diff file '" ++ path
                          ++ lit "': " ++ reason))],
     Return 1%Z).
Proof.
  intros Hp Hf. destruct (argv_second argv path Hp) as [prog [rest ->]].
  unfold main. cbn [List.length Nat.ltb Nat.leb nth].
  unfold bind at 1. unfold attempt at 1.
  unfold _read_file, bind, emit, ask, ret, raise. cbn. rewrite Hf.
  reflexivity.
Qed.

Lemma main_read_crash (argv : list pystr) (w : World) (path : pystr) (e : exn)
  (other : isinstance_OSError e = false) :
  nth_error argv 1 = Some path ->
  files w path = ReadCrash e other ->
  main argv w = ([OpenFile path], Raise e).
Proof.
  intros Hp Hf. destruct (argv_second argv path Hp) as [prog [rest ->]].
  unfold main. cbn [List.length Nat.ltb Nat.leb nth].
  unfold bind at 1. unfold attempt at 1.
  unfold _read_file, bind, emit, ask, ret, raise. cbn. rewrite Hf.
  destruct e; try discriminate other; reflexivity.
Qed.

Lemma argv_cases (argv : list pystr) :
  (List.length argv < 2)%nat \/ exists path, nth_error argv 1 = Some path.
Proof.
  destruct argv as [|prog [|path rest]]; cbn; [left; lia | left; lia |].
  right. eauto.
Qed.


(** X15: a request that [main] sends carries the text of the file named by
    [argv[1]], the default model and the value of [GITHUB_TOKEN], and it is
    sent only when that text is not blank and that value not empty. *)
Theorem main_request_provenance
  (argv : list pystr) (w : World) (req : Request) :
  In (HttpPost req) (fst (main argv w)) ->
  exists path d t,
    nth_error argv 1 = Some path
    /\ files w path = Content d
    /\ blank d = false
    /\ environ w (lit "GITHUB_TOKEN") = Some t
    /\ truthy t = true
    /\ req = request_of d DEFAULT_MODEL t.
Proof.
  intros Hin.
  destruct (argv_cases argv) as [Hlen | [path Hp]].
  { rewrite (main_usage argv w Hlen) in Hin. cbn in Hin.
    destruct Hin as [Hin | []]. discriminate. }
  destruct (files w path) as [d|reason|e other] eqn:Hf.
  2:{ rewrite (main_unreadable argv w path reason Hp Hf) in Hin.
      cbn in Hin. destruct Hin as [Hin | [Hin | []]]; discriminate. }
  2:{ rewrite (main_read_crash argv w path e other Hp Hf) in Hin.
      cbn in Hin. destruct Hin as [Hin | []]. discriminate. }
  assert (Hin' : In (HttpPost req) (fst (review_diff d DEFAULT_MODEL None w))).
  { rewrite (main_reads argv w path d Hp Hf) in Hin.
    destruct (review_diff d DEFAULT_MODEL None w) as [t [review|e]];
      cbn [fst];
      [destruct (forallb (stdout_encodes w) review) | destruct e];
      cbn [fst] in Hin;
      destruct Hin as [Hin | Hin]; try discriminate;
      try exact Hin;
      apply in_app_or in Hin; destruct Hin as [Hin | [Hin | []]];
      try discriminate; exact Hin. }
  rewrite review_diff_events in Hin'. cbn [credential lookup_trace] in Hin'.
  destruct (blank d) eqn:Hd; [destruct Hin'|].
  destruct (environ w (lit "GITHUB_TOKEN")) as [t|] eqn:He.
  2:{ cbn in Hin'. destruct Hin' as [Hin' | []]. discriminate. }
  destruct (truthy t) eqn:Ht.
  2:{ cbn in Hin'. destruct Hin' as [Hin' | []]. discriminate. }
  cbn in Hin'. destruct Hin' as [Hin' | [Hin' | []]]; [discriminate|].
  injection Hin' as <-.
  exists path, d, t. repeat split; assumption.
Qed.

Lemma main_request_provenance_witness :
  exists path d t,
    nth_error sample_argv 1 = Some path
    /\ files (sim (Responds hello_response)) path = Content d
    /\ blank d = false
    /\ environ (sim (Responds hello_response)) (lit "GITHUB_TOKEN") = Some t
    /\ truthy t = true
    /\ request_of sample_diff DEFAULT_MODEL sample_token
       = request_of d DEFAULT_MODEL t.
Proof.
  apply (main_request_provenance sample_argv (sim (Responds hello_response))
           (request_of sample_diff DEFAULT_MODEL sample_token)).
  right. right. left. reflexivity.
Defined.


(** X17: of the world, [review_diff] uses the value of [GITHUB_TOKEN], the
    answers of the network and the character table only: two worlds that
    agree on these give the same run, whatever their files and the rest of
    their environment hold. *)
Theorem review_diff_world_ext
  (w1 w2 : World) (diff_text model : pystr) (token : option pystr) :
  environ w1 (lit "GITHUB_TOKEN") = environ w2 (lit "GITHUB_TOKEN") ->
  (forall req, network w1 req = network w2 req) ->
  unicode_printable w1 = unicode_printable w2 ->
  review_diff diff_text model token w1 = review_diff diff_text model token w2.
Proof.
  intros He Hn Hu.
  assert (Hc : credential w1 token = credential w2 token)
    by (destruct token; [reflexivity | exact He]).
  destruct (blank diff_text) eqn:Hd.
  { now rewrite !(review_diff_blank _ diff_text model token Hd). }
  destruct (credential w2 token) as [t|] eqn:Hc2.
  - destruct (truthy t) eqn:Ht.
    + rewrite (review_diff_sent w1 diff_text model t token Hd Hc Ht).
      rewrite (review_diff_sent w2 diff_text model t token Hd Hc2 Ht).
      rewrite Hn.
      destruct (network w2 (request_of diff_text model t));
        [|reflexivity|reflexivity].
      now rewrite (extract_review_world w1 w2 r Hu).
    + rewrite (review_diff_no_credential w1 diff_text model token Hd)
        by (rewrite Hc; exact Ht).
      now rewrite (review_diff_no_credential w2 diff_text model token Hd)
        by (rewrite Hc2; exact Ht).
  - rewrite (review_diff_no_credential w1 diff_text model token Hd)
      by (rewrite Hc; reflexivity).
    now rewrite (review_diff_no_credential w2 diff_text model token Hd)
      by (rewrite Hc2; reflexivity).
Qed.

Lemma review_diff_world_ext_witness :
  review_diff sample_diff DEFAULT_MODEL None
    (simulated (Some sample_token) (Responds hello_response) sample_diff)
  = review_diff sample_diff DEFAULT_MODEL None
      (simulated (Some sample_token) (Responds hello_response) []).
Proof.
  apply (review_diff_world_ext
           (simulated (Some sample_token) (Responds hello_response) sample_diff)
           (simulated (Some sample_token) (Responds hello_response) [])
           sample_diff DEFAULT_MODEL None);
    [reflexivity | intros req; reflexivity | reflexivity].
Defined.

(** X9: when the service answers with a string content that standard output
    cannot encode, [main] sends the request, then the [UnicodeEncodeError]
    of [print(review)] leaves it uncaught: nothing is printed and no exit
    code is returned. *)
Theorem main_review_not_encodable
  (argv : list pystr) (w : World) (path d t : pystr) (r : Response)
  (data : value) (review : pystr) :
  nth_error argv 1 = Some path ->
  files w path = Content d ->
  blank d = false ->
  environ w (lit "GITHUB_TOKEN") = Some t ->
  truthy t = true ->
  network w (request_of d DEFAULT_MODEL t) = Responds r ->
  status_code r = 200%Z ->
  json_body r = Some data ->
  snd (content_path data w) = Return (VStr review) ->
  forallb (stdout_encodes w) review = false ->
  main argv w
  = ([OpenFile path; Getenv (lit "GITHUB_TOKEN");
      HttpPost (request_of d DEFAULT_MODEL t)],
     Raise UnicodeEncodeError).
Proof.
  intros Hp Hf Hd He Ht Hn Hs Hj Hc Henc.
  rewrite (main_reads argv w path d Hp Hf).
  rewrite (review_diff_responded w d DEFAULT_MODEL t None r Hd He Ht Hn).
  rewrite (extract_review_json w r data Hs Hj).
  rewrite content_path_run in Hc. cbn [snd] in Hc. rewrite Hc.
  cbn [snd]. rewrite Henc. reflexivity.
Qed.

(** The run with the content [\ud83d] and standard output in UTF-8. *)
Lemma main_lone_surrogate :
  main sample_argv (sim (Responds surrogate_response))
  = ([OpenFile (lit "diff.txt"); Getenv (lit "GITHUB_TOKEN");
      HttpPost (request_of sample_diff DEFAULT_MODEL sample_token)],
     Raise UnicodeEncodeError).
Proof.
  apply (main_review_not_encodable sample_argv
           (sim (Responds surrogate_response))
           (lit "diff.txt") sample_diff sample_token surrogate_response
           (VDict [ (lit "choices",
                     VList [ VDict [ (lit "message",
                                      VDict [ (lit "content",
                                               VStr [0xd83d%N]) ]) ] ]) ])
           [0xd83d%N]); reflexivity.
Defined.

(** X18: an exception of [requests.post] that is not a [RequestException],
    such as the [ValueError] for a token that holds a line break, is not
    turned into the tagged error: it leaves [review_diff] as it is, after
    the one request. *)
Theorem review_diff_post_crash
  (w : World) (diff_text model t : pystr) (token : option pystr)
  (e : exn) (other : isinstance_RequestException e = false) :
  blank diff_text = false ->
  credential w token = Some t ->
  truthy t = true ->
  network w (request_of diff_text model t) = Crashes e other ->
  review_diff diff_text model token w
  = (lookup_trace token ++ [HttpPost (request_of diff_text model t)],
     Raise e).
Proof.
  intros Hd Hc Ht Hn.
  now rewrite (review_diff_sent w diff_text model t token Hd Hc Ht), Hn.
Qed.

Lemma review_diff_post_crash_witness :
  review_diff sample_diff DEFAULT_MODEL None
    (sim (Crashes (ValueError (lit "Invalid header value")) eq_refl))
  = ([Getenv (lit "GITHUB_TOKEN");
      HttpPost (request_of sample_diff DEFAULT_MODEL sample_token)],
     Raise (ValueError (lit "Invalid header value"))).
Proof.
  apply (review_diff_post_crash
           (sim (Crashes (ValueError (lit "Invalid header value")) eq_refl))
           sample_diff DEFAULT_MODEL sample_token None
           (ValueError (lit "Invalid header value")) eq_refl); reflexivity.
Defined.
